(** * iterfun: the [hello_world] extension module (src/fun.c)

    A shallow embedding of the C translation unit [fun.c] together with the
    fragment of the CPython C API it is written against ([Py_BuildValue],
    [PyModule_Create], the calling convention selected by [METH_VARARGS]).

    Conventions of the embedding:
    - a C pointer to a Python object is an [option PyObject]; [None] is the
      [NULL] pointer, which as a return value signals a raised exception;
    - a C string is a Rocq [string] (one [ascii] per byte); it is read up to
      its first NUL byte, as [strlen] does;
    - a Python [str] is the list of its Unicode code points;
    - C functions with effects are computations in the state monad [M] over
      [State]: the mutable static storage of the translation unit and the
      error indicator of the running thread;
    - objects are values: allocation, addresses and reference counts are not
      represented, and allocation is assumed to succeed. *)

From Stdlib Require Import ZArith NArith List String Ascii Bool Lia.
From Stdlib Require Import DecimalString.
Import ListNotations.

Local Set Warnings "-register-all".
Local Open Scope string_scope.
Local Open Scope Z_scope.

(** ** Objects of the host runtime *)

(** Flag bits of [PyMethodDef.ml_flags] (methodobject.h). *)
Definition METH_VARARGS  : Z := 0x0001.
Definition METH_KEYWORDS : Z := 0x0002.
Definition METH_NOARGS   : Z := 0x0004.
Definition METH_O        : Z := 0x0008.
Definition METH_CLASS    : Z := 0x0010.
Definition METH_STATIC   : Z := 0x0020.
Definition METH_COEXIST  : Z := 0x0040.

(** Addresses of the C functions of the translation unit: the values a
    [PyCFunction] function pointer can take in this program. *)
Inductive PyCFunction : Set :=
| addr_hello_world.

(** [struct PyMethodDef]: one row of a method table. *)
Record PyMethodDef : Set := mkMethodDef {
  ml_name  : option string;
  ml_meth  : option PyCFunction;
  ml_flags : Z;
  ml_doc   : option string
}.

(** Addresses of the method tables in static storage. *)
Inductive PyMethodDef_ptr : Set :=
| addr_module_functions.

(** Addresses of the module definitions in static storage. *)
Inductive PyModuleDef_ptr : Set :=
| addr_iterfun_module.

(** [struct PyModuleDef], the fields the initialiser in [fun.c] sets
    ([m_base] is the constant [PyModuleDef_HEAD_INIT]; the bookkeeping the
    runtime keeps in that header is not represented). *)
Record PyModuleDef : Set := mkModuleDef {
  m_name    : string;
  m_doc     : option string;
  m_size    : Z;
  m_methods : option PyMethodDef_ptr
}.

Inductive PyObject : Set :=
| Py_None
| PyLong (value : Z)
| PyUnicode (codepoints : list N)
| PyTuple (items : list PyObject)
| PyCFunctionObject (m_ml : PyMethodDef)
| PyModuleObject (md_name : list N) (md_dict : list (string * PyObject)).

(** Exceptions raised by the modelled fragment of the runtime. *)
Inductive PyExc : Set :=
| PyExc_TypeError
| PyExc_ValueError
| PyExc_SystemError
| PyExc_AttributeError
| PyExc_UnicodeDecodeError.

Record PyErr : Set := mkErr {
  exc_type : PyExc;
  exc_msg  : string
}.

(** ** Program state *)

(** The two objects [fun.c] keeps in writable static storage. *)
Record Globals : Set := mkGlobals {
  mem_module_functions : list PyMethodDef;
  mem_iterfun_module   : PyModuleDef
}.

Record State : Set := mkState {
  statics : Globals;
  curexc  : option PyErr
}.

Definition M (A : Type) : Type := State -> A * State.

Definition ret {A} (a : A) : M A := fun st => (a, st).

Definition bind {A B} (c : M A) (k : A -> M B) : M B :=
  fun st => let (a, st') := c st in k a st'.

Declare Scope cpy_scope.
Delimit Scope cpy_scope with cpy.
Notation "x <- c ;; k" := (bind c (fun x => k))
  (at level 61, c at next level, right associativity) : cpy_scope.
Notation "c ;;; k" := (bind c (fun _ => k))
  (at level 61, right associativity) : cpy_scope.
Local Open Scope cpy_scope.

Definition get_statics : M Globals := fun st => (statics st, st).

Definition PyErr_Occurred : M (option PyErr) := fun st => (curexc st, st).

Definition PyErr_SetString (e : PyExc) (msg : string) : M unit :=
  fun st => (tt, mkState (statics st) (Some (mkErr e msg))).

Definition PyErr_Clear : M unit :=
  fun st => (tt, mkState (statics st) None).

(** [raise e msg]: set the error indicator and return [NULL]. *)
Definition raise {A} (e : PyExc) (msg : string) : M (option A) :=
  PyErr_SetString e msg ;;; ret None.

(** ** C strings and UTF-8 *)

(** The bytes of a C string: everything before the first NUL. *)
Fixpoint c_str (s : string) : list N :=
  match s with
  | EmptyString => []
  | String c rest =>
      let b := N_of_ascii c in
      if (b =? 0)%N then [] else b :: c_str rest
  end.

Definition in_range (lo hi b : N) : bool := ((lo <=? b) && (b <=? hi))%N.

Definition is_cont (b : N) : bool := in_range 0x80 0xBF b.

Definition cont_bits (b : N) : N := N.land b 0x3F.

(** Strict UTF-8 decoding, as [PyUnicode_DecodeUTF8] does with the default
    error handler: overlong forms, surrogates and code points above
    U+10FFFF are refused. *)
Fixpoint utf8_decode (bs : list N) : option (list N) :=
  match bs with
  | [] => Some []
  | b0 :: r0 =>
      if (b0 <? 0x80)%N then
        option_map (cons b0) (utf8_decode r0)
      else if in_range 0xC2 0xDF b0 then
        match r0 with
        | b1 :: r1 =>
            if is_cont b1 then
              option_map
                (cons (N.lor (N.shiftl (N.land b0 0x1F) 6) (cont_bits b1)))
                (utf8_decode r1)
            else None
        | _ => None
        end
      else if in_range 0xE0 0xEF b0 then
        match r0 with
        | b1 :: b2 :: r2 =>
            let lo := if (b0 =? 0xE0)%N then 0xA0%N else 0x80%N in
            let hi := if (b0 =? 0xED)%N then 0x9F%N else 0xBF%N in
            if in_range lo hi b1 && is_cont b2 then
              option_map
                (cons (N.lor (N.shiftl (N.land b0 0x0F) 12)
                         (N.lor (N.shiftl (cont_bits b1) 6) (cont_bits b2))))
                (utf8_decode r2)
            else None
        | _ => None
        end
      else if in_range 0xF0 0xF4 b0 then
        match r0 with
        | b1 :: b2 :: b3 :: r3 =>
            let lo := if (b0 =? 0xF0)%N then 0x90%N else 0x80%N in
            let hi := if (b0 =? 0xF4)%N then 0x8F%N else 0xBF%N in
            if in_range lo hi b1 && is_cont b2 && is_cont b3 then
              option_map
                (cons (N.lor (N.shiftl (N.land b0 0x07) 18)
                         (N.lor (N.shiftl (cont_bits b1) 12)
                            (N.lor (N.shiftl (cont_bits b2) 6)
                               (cont_bits b3)))))
                (utf8_decode r3)
            else None
        | _ => None
        end
      else None
  end.

(** [PyUnicode_FromString]: a new [str] from a NUL-terminated UTF-8 buffer,
    or [NULL] with [UnicodeDecodeError] set. *)
Definition PyUnicode_FromString (u : string) : M (option PyObject) :=
  match utf8_decode (c_str u) with
  | Some cps => ret (Some (PyUnicode cps))
  | None =>
      raise PyExc_UnicodeDecodeError
        "'utf-8' codec can't decode bytes: invalid data"
  end.

(** ** [Py_BuildValue] *)

(** The format units of [Py_BuildValue] that take a [const char *]: ["s"]
    and ["z"] both turn a C string into a [str] and [NULL] into [None].  Any
    other character is a bad format character.  The variable arguments are
    the list of [const char *] values passed after the format; a format
    that asks for more of them than were passed is undefined in C, and
    fails here. *)
Definition do_mkvalue (unit : ascii) (args : list (option string))
  : M (option PyObject * list (option string)) :=
  if (Ascii.eqb unit "s" || Ascii.eqb unit "z")%bool then
    match args with
    | Some str :: rest =>
        v <- PyUnicode_FromString str ;; ret (v, rest)
    | None :: rest => ret (Some Py_None, rest)
    | [] =>
        PyErr_SetString PyExc_SystemError
          "Py_BuildValue: missing argument" ;;;
        ret (None, [])
    end
  else
    PyErr_SetString PyExc_SystemError
      "bad format char passed to Py_BuildValue" ;;;
    ret (None, args).

(** Build one object per format unit, left to right; the result is [NULL]
    as soon as one unit fails. *)
Fixpoint do_mkvalues (units : list ascii) (args : list (option string))
  : M (option (list PyObject)) :=
  match units with
  | [] => ret (Some [])
  | u :: us =>
      r <- do_mkvalue u args ;;
      match r with
      | (Some v, rest) =>
          vs <- do_mkvalues us rest ;;
          ret (option_map (cons v) vs)
      | (None, _) => ret None
      end
  end.

(** [Py_BuildValue(format, ...)]: [None] for an empty format, the object
    itself for a single unit, a tuple for several. *)
Definition Py_BuildValue (format : string) (args : list (option string))
  : M (option PyObject) :=
  vs <- do_mkvalues (list_ascii_of_string format) args ;;
  match vs with
  | None => ret None
  | Some [] => ret (Some Py_None)
  | Some [v] => ret (Some v)
  | Some vs => ret (Some (PyTuple vs))
  end.

(** ** The translation unit [fun.c] *)

(** [static PyObject* hello_world(PyObject *self, PyObject *args)] *)
Definition hello_world (self args : option PyObject) : M (option PyObject) :=
  Py_BuildValue "s" [Some "hello, world!"].

(** The text the greeting denotes: one code point per character. *)
Definition greeting : list N :=
  map N_of_ascii (list_ascii_of_string "hello, world!").

(** [static PyMethodDef module_functions[]], as initialised. *)
Definition module_functions : list PyMethodDef :=
  [ mkMethodDef (Some "hello_world") (Some addr_hello_world) METH_VARARGS
      (Some "print hello world");
    mkMethodDef None None 0 None (* sentinel *) ].

(** [static struct PyModuleDef iterfun_module], as initialised. *)
Definition iterfun_module : PyModuleDef :=
  mkModuleDef "iterfun" None (-1) (Some addr_module_functions).

(** Static storage when the shared object has just been loaded. *)
Definition initial_statics : Globals :=
  mkGlobals module_functions iterfun_module.

Definition initial_state : State := mkState initial_statics None.

Definition load_methods (g : Globals) (p : PyMethodDef_ptr)
  : list PyMethodDef :=
  match p with addr_module_functions => mem_module_functions g end.

Definition load_module_def (g : Globals) (p : PyModuleDef_ptr) : PyModuleDef :=
  match p with addr_iterfun_module => mem_iterfun_module g end.

(** ** Module creation *)

Definition PyDict : Set := list (string * PyObject).

Definition PyDict_GetItemString (d : PyDict) (key : string)
  : option PyObject :=
  option_map snd (find (fun kv => String.eqb (fst kv) key) d).

(** Assignment keeps the position of a key that is already present and
    appends a new one, as a Python [dict] does. *)
Fixpoint PyDict_SetItemString (d : PyDict) (key : string) (v : PyObject)
  : PyDict :=
  match d with
  | [] => [(key, v)]
  | (k, w) :: rest =>
      if String.eqb k key then (k, v) :: rest
      else (k, w) :: PyDict_SetItemString rest key v
  end.

(** [PyModule_New]: a module object whose dictionary holds the five
    attributes every new module starts with. *)
Definition PyModule_New (name : string) : M (option (list N * PyDict)) :=
  u <- PyUnicode_FromString name ;;
  match u with
  | Some (PyUnicode cps) =>
      ret (Some (cps,
                 [ ("__name__", PyUnicode cps);
                   ("__doc__", Py_None);
                   ("__package__", Py_None);
                   ("__loader__", Py_None);
                   ("__spec__", Py_None) ]))
  | _ => ret None
  end.

Definition METH_FASTCALL : Z := 0x0080.
Definition METH_METHOD   : Z := 0x0200.

(** The bits of [ml_flags] that select the calling convention. *)
Definition call_flags (flags : Z) : Z :=
  Z.land flags
    (Z.lor METH_VARARGS (Z.lor METH_FASTCALL (Z.lor METH_NOARGS
       (Z.lor METH_O (Z.lor METH_KEYWORDS METH_METHOD))))).

(** The calling conventions a built-in function object can be created
    with. *)
Definition valid_call_flags (flags : Z) : bool :=
  let conv := call_flags flags in
  (conv =? METH_VARARGS)
  || (conv =? Z.lor METH_VARARGS METH_KEYWORDS)
  || (conv =? METH_FASTCALL)
  || (conv =? Z.lor METH_FASTCALL METH_KEYWORDS)
  || (conv =? METH_NOARGS)
  || (conv =? METH_O)
  || (conv =? Z.lor METH_METHOD (Z.lor METH_FASTCALL METH_KEYWORDS)).

(** [PyCFunction_NewEx(ml, self, module)] with no defining class: the
    function object of a table row, refused when the row's call flags are
    not one of the conventions or ask for a defining class. *)
Definition PyCFunction_NewEx (ml : PyMethodDef) : M (option PyObject) :=
  let name := match ml_name ml with Some n => n | None => "" end in
  if negb (valid_call_flags (ml_flags ml)) then
    raise PyExc_SystemError (name ++ "() method: bad call flags")
  else if Z.land (ml_flags ml) METH_METHOD =? 0 then
    ret (Some (PyCFunctionObject ml))
  else
    raise PyExc_SystemError
      "attempting to create PyCMethod with a METH_METHOD flag but no class".

(** [PyObject_SetAttrString(module, name, v)] for a name the module type
    does not define: the name becomes a [str], the type lookup that comes
    before the store drops a pending exception, and the value is stored in
    the module's dictionary. *)
Definition PyObject_SetAttrString (d : PyDict) (name : string) (v : PyObject)
  : M (option PyDict) :=
  u <- PyUnicode_FromString name ;;
  match u with
  | None => ret None
  | Some _ => PyErr_Clear ;;; ret (Some (PyDict_SetItemString d name v))
  end.

(** [PyModule_AddFunctions]: walk the table up to the sentinel row (the
    one whose [ml_name] is [NULL]) and bind one built-in function object
    per row.  A table without sentinel is read past its end in C; the walk
    stops at the end of the list here. *)
Fixpoint PyModule_AddFunctions (d : PyDict) (table : list PyMethodDef)
  : M (option PyDict) :=
  match table with
  | [] => ret (Some d)
  | fdef :: rest =>
      match ml_name fdef with
      | None => ret (Some d)
      | Some name =>
          if Z.land (ml_flags fdef) (Z.lor METH_CLASS METH_STATIC) =? 0 then
            func <- PyCFunction_NewEx fdef ;;
            match func with
            | None => ret None
            | Some func =>
                d' <- PyObject_SetAttrString d name func ;;
                match d' with
                | None => ret None
                | Some d' => PyModule_AddFunctions d' rest
                end
            end
          else
            raise PyExc_ValueError
              "module functions cannot set METH_CLASS or METH_STATIC"
      end
  end.

(** [PyModule_Create(def)] for a top-level module: a new module named
    [def->m_name], its functions taken from [def->m_methods] and its
    docstring from [def->m_doc] when these are not [NULL]. *)
Definition PyModule_Create (def : PyModuleDef_ptr) : M (option PyObject) :=
  g <- get_statics ;;
  let module := load_module_def g def in
  m <- PyModule_New (m_name module) ;;
  match m with
  | None => ret None
  | Some (name, d0) =>
      d1 <- match m_methods module with
            | None => ret (Some d0)
            | Some table => PyModule_AddFunctions d0 (load_methods g table)
            end ;;
      match d1 with
      | None => ret None
      | Some d1 =>
          match m_doc module with
          | None => ret (Some (PyModuleObject name d1))
          | Some doc =>
              u <- PyUnicode_FromString doc ;;
              match u with
              | None => ret None
              | Some u =>
                  ret (Some (PyModuleObject name
                               (PyDict_SetItemString d1 "__doc__" u)))
              end
          end
      end
  end.

(** [PyMODINIT_FUNC PyInit_iterfun(void)] *)
Definition PyInit_iterfun : M (option PyObject) :=
  PyModule_Create addr_iterfun_module.

(** ** Calling a built-in function from the host *)

(** The C function behind a function pointer. *)
Definition call_address (f : PyCFunction)
  : option PyObject -> option PyObject -> M (option PyObject) :=
  match f with
  | addr_hello_world => hello_world
  end.

Definition decimal (n : nat) : string :=
  NilEmpty.string_of_uint (Nat.to_uint n).

Definition function_repr (name : string) : string :=
  "<built-in function " ++ name ++ ">".

(** [_Py_CheckFunctionResult]: a C function must return [NULL] exactly when
    it has set the error indicator. *)
Definition _Py_CheckFunctionResult (name : string) (r : option PyObject)
  : M (option PyObject) :=
  e <- PyErr_Occurred ;;
  match r, e with
  | None, None =>
      raise PyExc_SystemError
        (function_repr name ++ " returned NULL without setting an exception")
  | Some _, Some _ =>
      raise PyExc_SystemError
        (function_repr name ++ " returned a result with an exception set")
  | _, _ => ret r
  end.

(** The call of a built-in function object with positional arguments
    [args] and keyword arguments [kwargs], for the conventions whose C
    function takes two arguments: [METH_VARARGS] passes the tuple of all
    positional arguments, [METH_NOARGS] insists on none and passes [NULL],
    [METH_O] insists on one and passes it.  None of them takes keywords.
    The other conventions call a C function of another type, of which this
    program has none; their flags are refused as bad call flags here. *)
Definition cfunction_call (ml : PyMethodDef) (self : option PyObject)
    (args : list PyObject) (kwargs : PyDict) : M (option PyObject) :=
  let name := match ml_name ml with Some n => n | None => "" end in
  match ml_meth ml with
  | None => raise PyExc_SystemError "NULL function pointer"
  | Some meth =>
      let conv := call_flags (ml_flags ml) in
      if negb ((conv =? METH_VARARGS) || (conv =? METH_NOARGS)
               || (conv =? METH_O)) then
        raise PyExc_SystemError (name ++ "() method: bad call flags")
      else
        match kwargs with
        | _ :: _ =>
            raise PyExc_TypeError (name ++ "() takes no keyword arguments")
        | [] =>
            if conv =? METH_VARARGS then
              r <- call_address meth self (Some (PyTuple args)) ;;
              _Py_CheckFunctionResult name r
            else if conv =? METH_NOARGS then
              match args with
              | [] =>
                  r <- call_address meth self None ;;
                  _Py_CheckFunctionResult name r
              | _ =>
                  raise PyExc_TypeError
                    (name ++ "() takes no arguments ("
                          ++ decimal (List.length args) ++ " given)")
              end
            else
              match args with
              | [a] =>
                  r <- call_address meth self (Some a) ;;
                  _Py_CheckFunctionResult name r
              | _ =>
                  raise PyExc_TypeError
                    (name ++ "() takes exactly one argument ("
                          ++ decimal (List.length args) ++ " given)")
              end
        end
  end.

(** The Python call of [module.attr] on positional arguments [args] and
    keyword arguments [kwargs]: the function found under [attr] in the
    module's dictionary, called with the module as [self]. *)
Definition call_module_function (module : PyObject) (attr : string)
    (args : list PyObject) (kwargs : PyDict) : M (option PyObject) :=
  match module with
  | PyModuleObject _ d =>
      match PyDict_GetItemString d attr with
      | Some (PyCFunctionObject ml) =>
          cfunction_call ml (Some module) args kwargs
      | Some _ => raise PyExc_TypeError "object is not callable"
      | None =>
          raise PyExc_AttributeError ("module has no attribute '" ++ attr ++ "'")
      end
  | _ => raise PyExc_AttributeError ("object has no attribute '" ++ attr ++ "'")
  end.

(** The functions a module exposes: its attributes that are built-in
    function objects, under the names they are bound to. *)
Definition is_function (o : PyObject) : bool :=
  match o with PyCFunctionObject _ => true | _ => false end.

Definition exposed_functions (module : PyObject) : list (string * PyObject) :=
  match module with
  | PyModuleObject _ d => filter (fun kv => is_function (snd kv)) d
  | _ => []
  end.

(** The rows of a method table in front of its sentinel. *)
Fixpoint table_entries (table : list PyMethodDef) : list PyMethodDef :=
  match table with
  | [] => []
  | fdef :: rest =>
      match ml_name fdef with
      | None => []
      | Some _ => fdef :: table_entries rest
      end
  end.

Definition is_sentinel (fdef : PyMethodDef) : bool :=
  match ml_name fdef, ml_meth fdef, ml_doc fdef with
  | None, None, None => ml_flags fdef =? 0
  | _, _, _ => false
  end.

Definition is_str (o : option PyObject) : bool :=
  match o with Some (PyUnicode _) => true | _ => false end.

(** [import iterfun], then the call of [iterfun.hello_world] on [args] and
    [kwargs]. *)
Definition import_and_call (args : list PyObject) (kwargs : PyDict)
  : M (option PyObject) :=
  m <- PyInit_iterfun ;;
  match m with
  | None => ret None
  | Some m => call_module_function m "hello_world" args kwargs
  end.

(** ** Runs of the module *)

(** [n] calls of [hello_world] in sequence, call [i] made with the
    arguments [inputs i]; the results are listed first call first. *)
Fixpoint call_sequence (n : nat)
    (inputs : nat -> option PyObject * option PyObject)
  : M (list (option PyObject)) :=
  match n with
  | O => ret []
  | S k =>
      rs <- call_sequence k inputs ;;
      r <- hello_world (fst (inputs k)) (snd (inputs k)) ;;
      ret (rs ++ [r])%list
  end.

(** The operations of the module a host can trigger. *)
Inductive operation : Set :=
| op_init
| op_call (self args : option PyObject).

Definition run_operation (o : operation) : M (option PyObject) :=
  match o with
  | op_init => PyInit_iterfun
  | op_call self args => hello_world self args
  end.

(** One call of [hello_world] as a transition of the program state. *)
Inductive call_step : State -> State -> Prop :=
| call_step_intro self args st :
    call_step st (snd (hello_world self args st)).

Inductive call_steps : State -> State -> Prop :=
| call_steps_refl st : call_steps st st
| call_steps_next st1 st2 st3 :
    call_steps st1 st2 -> call_step st2 st3 -> call_steps st1 st3.

Fixpoint run_operations (ops : list operation) : M unit :=
  match ops with
  | [] => ret tt
  | o :: rest => run_operation o ;;; run_operations rest
  end.

(** A computation raises when it returns [NULL] with the error indicator
    set. *)
Definition raises (c : M (option PyObject)) (st : State) : Prop :=
  fst (c st) = None /\ curexc (snd (c st)) <> None.

(** ** Threads *)

(** Threads of the host calling into the module.  Static storage is shared
    by all of them; the error indicator belongs to each thread.
    [hello_world] never releases the interpreter lock, so a call that has
    started runs to its end before another thread is scheduled: one call
    is one step, and the scheduler picks any thread that has not called
    yet. *)
Inductive job : Set :=
| Pending (self args : option PyObject)
| Returned (result : option PyObject).

Record thread : Set := mkThread {
  th_exc : option PyErr;
  th_job : job
}.

Record pool : Set := mkPool {
  shared  : Globals;
  threads : list thread
}.

Fixpoint set_nth {A} (i : nat) (x : A) (l : list A) : list A :=
  match l, i with
  | [], _ => []
  | _ :: rest, O => x :: rest
  | y :: rest, S j => y :: set_nth j x rest
  end.

Inductive pool_step : pool -> pool -> Prop :=
| pool_step_call i exc self args g ths r st' :
    nth_error ths i = Some (mkThread exc (Pending self args)) ->
    hello_world self args (mkState g exc) = (r, st') ->
    pool_step (mkPool g ths)
      (mkPool (statics st')
         (set_nth i (mkThread (curexc st') (Returned r)) ths)).

Inductive pool_steps : pool -> pool -> Prop :=
| pool_steps_refl p : pool_steps p p
| pool_steps_next p1 p2 p3 :
    pool_steps p1 p2 -> pool_step p2 p3 -> pool_steps p1 p3.

(** What a thread may have become since the pool was set up: it has not
    run yet, or it has made its call, holds the greeting and has its error
    indicator as it was. *)
Definition answered (t0 t : thread) : Prop :=
  t = t0 \/
  ((exists self args, th_job t0 = Pending self args) /\
   t = mkThread (th_exc t0) (Returned (Some (PyUnicode greeting)))).

Definition is_pending (t : thread) : bool :=
  match th_job t with Pending _ _ => true | Returned _ => false end.

(** ** Vocabulary of the properties *)

(** A computation leaves static storage as it found it. *)
Definition keeps_statics {A} (c : M A) : Prop :=
  forall st, statics (snd (c st)) = statics st.

(** The row of the method table in front of the sentinel. *)
Definition hello_world_def : PyMethodDef :=
  mkMethodDef (Some "hello_world") (Some addr_hello_world) METH_VARARGS
    (Some "print hello world").

(** The all-zero row that ends a method table. *)
Definition sentinel : PyMethodDef := mkMethodDef None None 0 None.

Definition iterfun_name : list N :=
  map N_of_ascii (list_ascii_of_string "iterfun").

(** The module object [import iterfun] yields. *)
Definition iterfun_object : PyObject :=
  PyModuleObject iterfun_name
    [ ("__name__", PyUnicode iterfun_name);
      ("__doc__", Py_None);
      ("__package__", Py_None);
      ("__loader__", Py_None);
      ("__spec__", Py_None);
      ("hello_world", PyCFunctionObject hello_world_def) ].

(** The characters of a [str] whose code points are all below 256. *)
Definition text_of (cps : list N) : string :=
  string_of_list_ascii (map ascii_of_N cps).

(** A pool of two threads that are about to call, one with no argument
    and one with the argument 1, and the same pool after the second has
    run. *)
Definition two_callers : pool :=
  mkPool initial_statics
    [ mkThread None (Pending None (Some (PyTuple [])));
      mkThread None (Pending None (Some (PyTuple [PyLong 1]))) ].

Definition two_callers_later : pool :=
  mkPool initial_statics
    [ mkThread None (Pending None (Some (PyTuple [])));
      mkThread None (Returned (Some (PyUnicode greeting))) ].

(** The results of a run of operations, first operation first. *)
Fixpoint run_results (ops : list operation) : M (list (option PyObject)) :=
  match ops with
  | [] => ret []
  | o :: rest =>
      r <- run_operation o ;;
      rs <- run_results rest ;;
      ret (r :: rs)
  end.

(** What each operation hands back when nothing has gone wrong. *)
Definition expected_result (o : operation) : option PyObject :=
  match o with
  | op_init => Some iterfun_object
  | op_call _ _ => Some (PyUnicode greeting)
  end.

(** Static storage in which further rows follow the table of [fun.c]. *)
Definition statics_with_rows (extra : list PyMethodDef) : Globals :=
  mkGlobals (module_functions ++ extra) iterfun_module.

(** A thread once its call is over. *)
Definition finish (t : thread) : thread :=
  match th_job t with
  | Pending _ _ => mkThread (th_exc t) (Returned (Some (PyUnicode greeting)))
  | Returned _ => t
  end.

Definition all_returned (ths : list thread) : bool :=
  forallb (fun t => negb (is_pending t)) ths.

(** The pool [two_callers] when both threads have run. *)
Definition two_callers_done : pool :=
  mkPool initial_statics
    [ mkThread None (Returned (Some (PyUnicode greeting)));
      mkThread None (Returned (Some (PyUnicode greeting))) ].

Create HintDb statics.

(** * Properties *)

(** ** The function body *)

Lemma c_str_greeting : c_str "hello, world!" = greeting.
Proof. reflexivity. Qed.

(** Bytes below 0x80 decode to themselves: C strings of plain ASCII are
    never refused. *)
Lemma utf8_decode_ascii (bs : list N) :
  Forall (fun b => (b < 0x80)%N) bs -> utf8_decode bs = Some bs.
Proof.
  induction 1 as [|b bs Hb _ IH]; [reflexivity|].
  cbn [utf8_decode].
  apply N.ltb_lt in Hb. rewrite Hb, IH. reflexivity.
Qed.

Lemma utf8_decode_greeting : utf8_decode greeting = Some greeting.
Proof. apply utf8_decode_ascii. repeat constructor. Qed.

Lemma PyUnicode_FromString_greeting st :
  PyUnicode_FromString "hello, world!" st = (Some (PyUnicode greeting), st).
Proof.
  unfold PyUnicode_FromString.
  rewrite c_str_greeting, utf8_decode_greeting. reflexivity.
Qed.

Lemma Py_BuildValue_s_greeting st :
  Py_BuildValue "s" [Some "hello, world!"] st
  = (Some (PyUnicode greeting), st).
Proof.
  unfold Py_BuildValue, bind. cbn [list_ascii_of_string do_mkvalues].
  unfold bind, do_mkvalue. cbn [Ascii.eqb Bool.eqb orb].
  unfold bind. rewrite PyUnicode_FromString_greeting. reflexivity.
Qed.

Lemma hello_world_eq self args st :
  hello_world self args st = (Some (PyUnicode greeting), st).
Proof. unfold hello_world. apply Py_BuildValue_s_greeting. Qed.

(** ** Static storage is read-only for the runtime fragment

    The only way the modelled runtime changes the state is by setting the
    error indicator. *)

Lemma keeps_statics_ret {A} (a : A) : keeps_statics (ret a).
Proof. intro st. reflexivity. Qed.

Lemma keeps_statics_bind {A B} (c : M A) (k : A -> M B) :
  keeps_statics c -> (forall a, keeps_statics (k a)) ->
  keeps_statics (bind c k).
Proof.
  intros Hc Hk st. unfold bind.
  specialize (Hc st). destruct (c st) as [a st1]. cbn [snd] in Hc.
  rewrite Hk. exact Hc.
Qed.

Lemma keeps_statics_raise {A} e msg : keeps_statics (@raise A e msg).
Proof. intro st. reflexivity. Qed.

Lemma keeps_statics_get : keeps_statics get_statics.
Proof. intro st. reflexivity. Qed.

Lemma keeps_statics_occurred : keeps_statics PyErr_Occurred.
Proof. intro st. reflexivity. Qed.

Lemma keeps_statics_FromString u : keeps_statics (PyUnicode_FromString u).
Proof.
  unfold PyUnicode_FromString.
  destruct (utf8_decode (c_str u));
    [apply keeps_statics_ret | apply keeps_statics_raise].
Qed.

#[local] Hint Resolve keeps_statics_ret keeps_statics_raise keeps_statics_get
  keeps_statics_occurred keeps_statics_FromString : statics.

Ltac keeps_statics_step :=
  match goal with
  | |- keeps_statics (bind _ _) => apply keeps_statics_bind; [|intro]
  | |- keeps_statics (match ?x with _ => _ end) => destruct x
  | |- keeps_statics (if ?b then _ else _) => destruct b
  | |- keeps_statics _ => solve [auto with statics]
  end.

Lemma keeps_statics_New name : keeps_statics (PyModule_New name).
Proof. unfold PyModule_New. repeat keeps_statics_step. Qed.

Lemma keeps_statics_clear : keeps_statics PyErr_Clear.
Proof. intro st. reflexivity. Qed.

Lemma keeps_statics_NewEx ml : keeps_statics (PyCFunction_NewEx ml).
Proof. unfold PyCFunction_NewEx. repeat keeps_statics_step. Qed.

Lemma keeps_statics_SetAttr d name v :
  keeps_statics (PyObject_SetAttrString d name v).
Proof.
  unfold PyObject_SetAttrString.
  apply keeps_statics_bind; [apply keeps_statics_FromString|].
  intros [u|]; [|apply keeps_statics_ret].
  apply keeps_statics_bind; [apply keeps_statics_clear|].
  intro. apply keeps_statics_ret.
Qed.

Lemma keeps_statics_AddFunctions table :
  forall d, keeps_statics (PyModule_AddFunctions d table).
Proof.
  induction table as [|fdef rest IH]; intro d; cbn [PyModule_AddFunctions].
  - apply keeps_statics_ret.
  - destruct (ml_name fdef) as [name|]; [|apply keeps_statics_ret].
    destruct (_ =? 0); [|apply keeps_statics_raise].
    apply keeps_statics_bind; [apply keeps_statics_NewEx|].
    intros [func|]; [|apply keeps_statics_ret].
    apply keeps_statics_bind; [apply keeps_statics_SetAttr|].
    intros [d'|]; [apply IH | apply keeps_statics_ret].
Qed.

#[local] Hint Resolve keeps_statics_New keeps_statics_AddFunctions : statics.

Lemma keeps_statics_Create def : keeps_statics (PyModule_Create def).
Proof. unfold PyModule_Create. repeat keeps_statics_step. Qed.

Lemma keeps_statics_hello_world self args :
  keeps_statics (hello_world self args).
Proof. intro st. rewrite hello_world_eq. reflexivity. Qed.

Lemma keeps_statics_operation o : keeps_statics (run_operation o).
Proof.
  destruct o; cbn [run_operation].
  - apply keeps_statics_Create.
  - apply keeps_statics_hello_world.
Qed.

Lemma keeps_statics_operations ops : keeps_statics (run_operations ops).
Proof.
  induction ops as [|o rest IH]; cbn [run_operations].
  - apply keeps_statics_ret.
  - apply keeps_statics_bind; [apply keeps_statics_operation | intro; exact IH].
Qed.

(** ** Module initialisation from the initial static storage *)

Lemma PyInit_iterfun_eq :
  PyInit_iterfun initial_state = (Some iterfun_object, initial_state).
Proof. reflexivity. Qed.

Lemma cfunction_call_hello_world self args st :
  curexc st = None ->
  cfunction_call hello_world_def self args [] st
  = (Some (PyUnicode greeting), st).
Proof.
  intro Hexc. unfold cfunction_call. cbn -[hello_world _Py_CheckFunctionResult].
  unfold bind. rewrite hello_world_eq.
  unfold _Py_CheckFunctionResult, bind, PyErr_Occurred. rewrite Hexc.
  reflexivity.
Qed.

Lemma import_and_call_eq args :
  import_and_call args [] initial_state
  = (Some (PyUnicode greeting), initial_state).
Proof.
  unfold import_and_call, bind.
  rewrite PyInit_iterfun_eq.
  unfold call_module_function, iterfun_object.
  cbn [PyDict_GetItemString find fst snd String.eqb Ascii.eqb Bool.eqb
       option_map].
  apply cfunction_call_hello_world. reflexivity.
Qed.

(** ** Sequences of calls *)

Lemma call_sequence_eq n inputs st :
  call_sequence n inputs st = (repeat (Some (PyUnicode greeting)) n, st).
Proof.
  induction n as [|k IH]; [reflexivity|].
  cbn [call_sequence]. unfold bind at 1. rewrite IH.
  unfold bind. rewrite hello_world_eq. unfold ret.
  replace (S k) with (k + 1)%nat by lia.
  rewrite repeat_app. reflexivity.
Qed.

Lemma call_step_same st st' : call_step st st' -> st' = st.
Proof. intros [self args st0]. rewrite hello_world_eq. reflexivity. Qed.

Lemma call_steps_same st st' : call_steps st st' -> st' = st.
Proof.
  induction 1 as [st0|st1 st2 st3 _ IH Hstep]; [reflexivity|].
  apply call_step_same in Hstep. congruence.
Qed.

(** ** Threads *)

Lemma Forall2_answered_refl ths : Forall2 answered ths ths.
Proof. induction ths; constructor; [left; reflexivity | assumption]. Qed.

Lemma Forall2_set_nth {A} (R : A -> A -> Prop) l0 :
  forall l i t t',
    Forall2 R l0 l ->
    nth_error l i = Some t ->
    (forall t0, R t0 t -> R t0 t') ->
    Forall2 R l0 (set_nth i t' l).
Proof.
  intros l i t t' HF. revert i.
  induction HF as [|x y l0 l Hxy HF IH]; intros i Hnth Hupd.
  - destruct i; discriminate.
  - destruct i as [|j]; cbn [set_nth].
    + injection Hnth as ->. constructor; [apply Hupd, Hxy | exact HF].
    + constructor; [exact Hxy | apply IH; assumption].
Qed.

Lemma answered_after_call t0 exc self args :
  answered t0 (mkThread exc (Pending self args)) ->
  answered t0 (mkThread exc (Returned (Some (PyUnicode greeting)))).
Proof.
  intros [<-|[_ Heq]]; [|discriminate].
  right. split; [exists self, args; reflexivity | reflexivity].
Qed.

Lemma pool_step_invariant p0 p p' :
  shared p = shared p0 /\ Forall2 answered (threads p0) (threads p) ->
  pool_step p p' ->
  shared p' = shared p0 /\ Forall2 answered (threads p0) (threads p').
Proof.
  intros [Hsh HF] Hstep.
  destruct Hstep as [i exc self args g ths r st' Hnth Hcall].
  rewrite hello_world_eq in Hcall. injection Hcall as <- <-.
  cbn [shared threads statics curexc] in *. split; [exact Hsh|].
  eapply Forall2_set_nth; [exact HF | exact Hnth |].
  intros t0. apply answered_after_call.
Qed.

Lemma pool_steps_invariant p0 p :
  pool_steps p0 p ->
  shared p = shared p0 /\ Forall2 answered (threads p0) (threads p).
Proof.
  induction 1 as [p|p1 p2 p3 _ IH Hstep].
  - split; [reflexivity | apply Forall2_answered_refl].
  - eapply pool_step_invariant; eassumption.
Qed.

Lemma pool_step_enabled p i t :
  nth_error (threads p) i = Some t -> is_pending t = true ->
  exists p', pool_step p p'.
Proof.
  destruct p as [g ths], t as [exc [self args|r]]; cbn [threads];
    intros Hnth Hpend; [|discriminate].
  eexists. eapply pool_step_call; [exact Hnth | apply hello_world_eq].
Qed.

(** ** The host's view of a call *)

(** Keyword arguments never reach [hello_world]: a [METH_VARARGS] function
    without [METH_KEYWORDS] is refused them by the caller's side of the
    convention, with a [TypeError]. *)
Lemma keyword_arguments_refused args kw kwargs :
  import_and_call args (kw :: kwargs) initial_state
  = (None,
     mkState initial_statics
       (Some (mkErr PyExc_TypeError
                "hello_world() takes no keyword arguments"))).
Proof. reflexivity. Qed.

(** What the same row would do under [METH_NOARGS]: the host refuses the
    extra argument before the function is entered.  The table in [fun.c]
    does not ask for this. *)
Lemma noargs_would_refuse_extra_argument self a :
  cfunction_call
    (mkMethodDef (Some "hello_world") (Some addr_hello_world) METH_NOARGS
       (Some "print hello world"))
    self [a] [] initial_state
  = (None,
     mkState initial_statics
       (Some (mkErr PyExc_TypeError
                "hello_world() takes no arguments (1 given)"))).
Proof. reflexivity. Qed.

(** Module creation with an exception pending: binding the function drops
    it. *)
Example PyInit_iterfun_drops_pending e :
  PyInit_iterfun (mkState initial_statics (Some e))
  = (Some iterfun_object, initial_state).
Proof. reflexivity. Qed.

(** A row whose flags name no calling convention is refused when the
    module is created. *)
Example bad_call_flags_refused :
  PyModule_AddFunctions []
    [mkMethodDef (Some "f") (Some addr_hello_world) 0 None; sentinel]
    initial_state
  = (None,
     mkState initial_statics
       (Some (mkErr PyExc_SystemError "f() method: bad call flags"))).
Proof. reflexivity. Qed.

(** The runtime fragment does fail where CPython fails. *)
Example utf8_decode_two_bytes : utf8_decode [0xC3; 0xA9]%N = Some [0xE9%N].
Proof. reflexivity. Qed.

Example utf8_decode_overlong : utf8_decode [0xC0; 0x80]%N = None.
Proof. reflexivity. Qed.

Example utf8_decode_surrogate : utf8_decode [0xED; 0xA0; 0x80]%N = None.
Proof. reflexivity. Qed.

Example Py_BuildValue_bad_format :
  Py_BuildValue "q" [Some "hello, world!"] initial_state
  = (None,
     mkState initial_statics
       (Some (mkErr PyExc_SystemError
                "bad format char passed to Py_BuildValue"))).
Proof. reflexivity. Qed.

Example Py_BuildValue_two_units :
  fst (Py_BuildValue "sz" [Some "hello, world!"; None] initial_state)
  = Some (PyTuple [PyUnicode greeting; Py_None]).
Proof. reflexivity. Qed.

(** * The claims of the specification *)

(** C1. Every invocation of [hello_world] returns exactly the string
    "hello, world!": whatever [self], [args] and the state are, the result
    is the [str] whose characters spell the greeting, and so is the result
    of the host's call with no arguments. *)
Theorem hello_world_returns_greeting :
  (forall self args st,
      fst (hello_world self args st) = Some (PyUnicode greeting)) /\
  text_of greeting = "hello, world!" /\
  fst (import_and_call [] [] initial_state) = Some (PyUnicode greeting).
Proof.
  split; [|split].
  - intros. rewrite hello_world_eq. reflexivity.
  - reflexivity.
  - rewrite import_and_call_eq. reflexivity.
Qed.

(** C2, as the specification states it, fails: the call with one extra
    argument, here the integer 1, returns the greeting and raises
    nothing. *)
Lemma extra_argument_not_rejected :
  fst (import_and_call [PyLong 1] [] initial_state)
  = Some (PyUnicode greeting) /\
  ~ raises (import_and_call [PyLong 1] []) initial_state.
Proof.
  rewrite import_and_call_eq. split; [reflexivity|].
  intros [Hnull _]. discriminate Hnull.
Qed.

(** C2, amended. Calling [hello_world] with one extra argument returns
    "hello, world!": the table registers the function as [METH_VARARGS],
    the extra argument arrives in the [args] tuple, and the body ignores
    it.  No error is raised and the state is as before. *)
Theorem extra_argument_accepted (a : PyObject) :
  ml_flags hello_world_def = METH_VARARGS /\
  import_and_call [a] [] initial_state
  = (Some (PyUnicode greeting), initial_state) /\
  (forall self st,
      hello_world self (Some (PyTuple [a])) st
      = (Some (PyUnicode greeting), st)).
Proof.
  split; [reflexivity|split].
  - apply import_and_call_eq.
  - intros. apply hello_world_eq.
Qed.

(** C3. [hello_world] is deterministic and has no side effect: any two
    calls, whatever their arguments and states, return the same result; a
    call returns the state it was given; and [n] calls in sequence (1000
    of them in particular) return [n] times the greeting and leave the
    state as it was before the first. *)
Theorem hello_world_deterministic_pure :
  (forall self1 args1 st1 self2 args2 st2,
      fst (hello_world self1 args1 st1) = fst (hello_world self2 args2 st2)) /\
  (forall self args st, snd (hello_world self args st) = st) /\
  (forall n inputs st,
      call_sequence n inputs st
      = (repeat (Some (PyUnicode greeting)) n, st)) /\
  (forall inputs st,
      call_sequence 1000 inputs st
      = (repeat (Some (PyUnicode greeting)) 1000, st)).
Proof.
  split; [|split; [|split]]; intros.
  - rewrite !hello_world_eq. reflexivity.
  - rewrite hello_world_eq. reflexivity.
  - apply call_sequence_eq.
  - apply call_sequence_eq.
Qed.

(** C4. [hello_world] has no failure mode: every invocation returns an
    object, never [NULL], and leaves the error indicator as it found it.
    Seen from the host, the call with any positional arguments raises
    nothing. *)
Theorem hello_world_never_fails :
  (forall self args st,
      exists v,
        fst (hello_world self args st) = Some v /\
        curexc (snd (hello_world self args st)) = curexc st) /\
  (forall self args st, ~ raises (hello_world self args) st) /\
  (forall args, ~ raises (import_and_call args []) initial_state).
Proof.
  split; [|split].
  - intros. exists (PyUnicode greeting). rewrite hello_world_eq. split; reflexivity.
  - intros self args st [Hnull _]. rewrite hello_world_eq in Hnull.
    discriminate Hnull.
  - intros args [Hnull _]. rewrite import_and_call_eq in Hnull.
    discriminate Hnull.
Qed.

(** C5. The result of [hello_world] does not depend on its inputs: for all
    values of [self] and [args] the call is the same computation, so the
    parameters are never read, and for an argument tuple of any length the
    result is the greeting. *)
Theorem hello_world_ignores_inputs :
  (exists body : M (option PyObject),
      forall self args, hello_world self args = body) /\
  (forall self1 args1 self2 args2 st,
      hello_world self1 args1 st = hello_world self2 args2 st) /\
  (forall self items st,
      fst (hello_world self (Some (PyTuple items)) st)
      = Some (PyUnicode greeting)).
Proof.
  split; [|split].
  - exists (Py_BuildValue "s" [Some "hello, world!"]). reflexivity.
  - intros. rewrite !hello_world_eq. reflexivity.
  - intros. rewrite hello_world_eq. reflexivity.
Qed.

(** C6. The module exposes one callable, under the name "hello_world": the
    method table has one row in front of its sentinel, the module object
    [PyInit_iterfun] creates has one function attribute, and both carry
    that name.  Called with zero arguments it returns a text value, a
    [str]. *)
Theorem sole_interface_hello_world :
  map ml_name (table_entries module_functions) = [Some "hello_world"] /\
  fst (PyInit_iterfun initial_state) = Some iterfun_object /\
  exposed_functions iterfun_object
  = [("hello_world", PyCFunctionObject hello_world_def)] /\
  import_and_call [] [] initial_state
  = (Some (PyUnicode greeting), initial_state) /\
  is_str (fst (import_and_call [] [] initial_state)) = true.
Proof.
  split; [reflexivity|]. split; [reflexivity|]. split; [reflexivity|].
  rewrite import_and_call_eq. split; reflexivity.
Qed.

(** C7. The component is stateless: the states reached from [st] by any
    number of calls of [hello_world] are [st] alone, so the machine has one
    state and no transition out of it, and a call made there returns what
    it returns in any other state. *)
Theorem hello_world_stateless st st' :
  call_steps st st' ->
  st' = st /\
  (forall self args, snd (hello_world self args st') = st') /\
  (forall self args st2,
      fst (hello_world self args st') = fst (hello_world self args st2)).
Proof.
  intro Hsteps. split; [apply call_steps_same, Hsteps|].
  split; intros; rewrite !hello_world_eq; reflexivity.
Qed.

(** C7 at the initial state, after one call. *)
Lemma hello_world_stateless_witness :
  call_steps initial_state
    (snd (hello_world None (Some (PyTuple [])) initial_state)) /\
  snd (hello_world None (Some (PyTuple [])) initial_state) = initial_state.
Proof.
  assert (Hsteps : call_steps initial_state
            (snd (hello_world None (Some (PyTuple [])) initial_state))).
  { eapply call_steps_next; [apply call_steps_refl | apply call_step_intro]. }
  split; [exact Hsteps|].
  exact (proj1 (hello_world_stateless _ _ Hsteps)).
Defined.

(** C8. The only data value is the literal "hello, world!".  It is a
    constant of the program: its bytes decode to the greeting, whatever
    operations of the module ran before (initialisations and calls, in any
    number and order) static storage is as it was and the next call
    returns the greeting, the same as every call before it. *)
Theorem greeting_literal_immutable (ops : list operation) (st : State) :
  utf8_decode (c_str "hello, world!") = Some greeting /\
  text_of greeting = "hello, world!" /\
  statics (snd (run_operations ops st)) = statics st /\
  (forall self args,
      fst (hello_world self args (snd (run_operations ops st)))
      = Some (PyUnicode greeting)).
Proof.
  split; [reflexivity|]. split; [reflexivity|]. split.
  - apply keeps_statics_operations.
  - intros. rewrite hello_world_eq. reflexivity.
Qed.

(** C9. [PyInit_iterfun] creates a module named "iterfun".  Its method
    table is one function row, with name "hello_world", the function
    [hello_world], flags [METH_VARARGS] and docstring "print hello world",
    followed by the all-[NULL] sentinel; the module object binds that one
    function under its name.  Run with no exception pending,
    [PyInit_iterfun] returns that module and leaves the state as it was. *)
Theorem PyInit_iterfun_registers_hello_world :
  module_functions = [hello_world_def; sentinel] /\
  hello_world_def
  = mkMethodDef (Some "hello_world") (Some addr_hello_world) METH_VARARGS
      (Some "print hello world") /\
  is_sentinel sentinel = true /\
  table_entries module_functions = [hello_world_def] /\
  m_methods iterfun_module = Some addr_module_functions /\
  PyInit_iterfun initial_state = (Some iterfun_object, initial_state) /\
  (exists d, iterfun_object = PyModuleObject iterfun_name d /\
             text_of iterfun_name = "iterfun") /\
  exposed_functions iterfun_object
  = [("hello_world", PyCFunctionObject hello_world_def)].
Proof.
  do 5 (split; [reflexivity|]).
  split; [apply PyInit_iterfun_eq|].
  split; [|reflexivity].
  eexists. split; reflexivity.
Qed.

(** C10. [hello_world] may be called from any number of threads with no
    coordination.  In every state the pool reaches from [p0], under any
    schedule, shared static storage is that of [p0], every thread that has
    made its call holds the greeting and has its own error indicator as it
    was, and every thread that has not called yet can take its step at
    once, whatever the others have done. *)
Theorem hello_world_concurrent p0 p :
  pool_steps p0 p ->
  shared p = shared p0 /\
  Forall2 answered (threads p0) (threads p) /\
  (forall i t,
      nth_error (threads p) i = Some t -> is_pending t = true ->
      exists p', pool_step p p').
Proof.
  intro Hsteps.
  destruct (pool_steps_invariant _ _ Hsteps) as [Hsh HF].
  split; [exact Hsh|]. split; [exact HF|].
  intros i t. apply pool_step_enabled.
Qed.

(** C10 on a pool of two callers, after the second has run. *)
Lemma hello_world_concurrent_witness :
  pool_steps two_callers two_callers_later /\
  shared two_callers_later = shared two_callers /\
  Forall2 answered (threads two_callers) (threads two_callers_later).
Proof.
  assert (Hsteps : pool_steps two_callers two_callers_later).
  { refine (pool_steps_next _ _ _ (pool_steps_refl _) _).
    exact (pool_step_call 1 None None (Some (PyTuple [PyLong 1]))
             initial_statics (threads two_callers)
             (Some (PyUnicode greeting)) initial_state
             eq_refl eq_refl). }
  split; [exact Hsteps|].
  destruct (hello_world_concurrent _ _ Hsteps) as [Hsh [HF _]].
  split; [exact Hsh | exact HF].
Defined.

(** * Further properties of the module *)

(** ** Helper lemmas *)

Lemma AddFunctions_stops_at_sentinel rows :
  forall d s extra st,
    ml_name s = None ->
    PyModule_AddFunctions d (rows ++ s :: extra) st
    = PyModule_AddFunctions d (rows ++ [s]) st.
Proof.
  induction rows as [|fdef rows IH]; intros d s extra st Hs; cbn [app].
  - cbn [PyModule_AddFunctions]. rewrite Hs. reflexivity.
  - cbn [PyModule_AddFunctions].
    destruct (ml_name fdef) as [name|]; [|reflexivity].
    destruct (_ =? 0); [|reflexivity].
    unfold bind at 1 3.
    destruct (PyCFunction_NewEx fdef st) as [[func|] st1]; [|reflexivity].
    unfold bind.
    destruct (PyObject_SetAttrString d name func st1) as [[d'|] st2];
      [apply IH, Hs | reflexivity].
Qed.

Lemma pool_steps_trans p1 p2 p3 :
  pool_steps p1 p2 -> pool_steps p2 p3 -> pool_steps p1 p3.
Proof.
  intros H12 H23. induction H23 as [p|p2 p3 p4 _ IH Hstep]; [exact H12|].
  eapply pool_steps_next; [apply IH, H12 | exact Hstep].
Qed.

Lemma nth_error_middle {A} (pre : list A) t post :
  nth_error (pre ++ t :: post) (List.length pre) = Some t.
Proof. induction pre as [|x pre IH]; [reflexivity | exact IH]. Qed.

Lemma set_nth_middle {A} (pre : list A) x t post :
  (set_nth (List.length pre) x (pre ++ t :: post) = pre ++ x :: post)%list.
Proof.
  induction pre as [|y pre IH]; [reflexivity|].
  cbn [List.length app set_nth]. rewrite IH. reflexivity.
Qed.

Lemma finish_one g pre t post :
  pool_steps (mkPool g (pre ++ t :: post)) (mkPool g (pre ++ finish t :: post)).
Proof.
  destruct t as [exc [self args|r]]; unfold finish; cbn [th_job th_exc];
    [|apply pool_steps_refl].
  eapply pool_steps_next; [apply pool_steps_refl|].
  pose proof (pool_step_call (List.length pre) exc self args g
                (pre ++ mkThread exc (Pending self args) :: post)
                _ _ (nth_error_middle _ _ _) (hello_world_eq _ _ _)) as Hstep.
  cbn [statics curexc] in Hstep. rewrite set_nth_middle in Hstep.
  exact Hstep.
Qed.

Lemma finish_rest g post :
  forall pre,
    pool_steps (mkPool g (pre ++ post)) (mkPool g (pre ++ map finish post)).
Proof.
  induction post as [|t post IH]; intro pre; [apply pool_steps_refl|].
  cbn [map]. eapply pool_steps_trans; [apply finish_one|].
  specialize (IH (pre ++ [finish t])%list).
  rewrite <- !app_assoc in IH. exact IH.
Qed.

Lemma answered_returned t0 t :
  answered t0 t -> is_pending t = false -> t = finish t0.
Proof.
  intros [->|[[self [args Hjob]] ->]] Hdone; unfold finish.
  - unfold is_pending in Hdone. destruct (th_job t0); [discriminate|reflexivity].
  - rewrite Hjob. reflexivity.
Qed.

Lemma Forall2_answered_returned ths0 ths :
  Forall2 answered ths0 ths -> all_returned ths = true ->
  ths = map finish ths0.
Proof.
  induction 1 as [|t0 t ths0 ths Ht _ IH]; [reflexivity|].
  unfold all_returned. cbn [forallb map].
  intros [Hdone Hrest]%andb_true_iff.
  apply negb_true_iff in Hdone.
  rewrite (answered_returned _ _ Ht Hdone), (IH Hrest). reflexivity.
Qed.

(** ** The calling contract *)

(** X1. What a host gets from [iterfun.hello_world]: with positional
    arguments only, however many, the greeting and an untouched state; with
    at least one keyword argument, [NULL] and the [TypeError] of a function
    registered without [METH_KEYWORDS]. *)
Theorem hello_world_calling_contract args kwargs :
  import_and_call args kwargs initial_state
  = match kwargs with
    | [] => (Some (PyUnicode greeting), initial_state)
    | _ :: _ =>
        (None,
         mkState initial_statics
           (Some (mkErr PyExc_TypeError
                    "hello_world() takes no keyword arguments")))
    end.
Proof.
  destruct kwargs as [|kw kwargs].
  - apply import_and_call_eq.
  - apply keyword_arguments_refused.
Qed.

(** ** Initialisations and calls in any order *)

(** X2. Starting from the static storage of a freshly loaded module with
    no exception pending, any sequence of initialisations and calls
    returns the module object for each initialisation and the greeting for
    each call, and ends in the state it started in: the operations do not
    disturb one another and can be repeated. *)
Theorem operations_compose ops :
  run_results ops initial_state = (map expected_result ops, initial_state).
Proof.
  induction ops as [|o ops IH]; [reflexivity|].
  cbn [run_results map]. unfold bind at 1.
  assert (Hop : run_operation o initial_state
                = (expected_result o, initial_state)).
  { destruct o as [|self args]; cbn [run_operation expected_result].
    - apply PyInit_iterfun_eq.
    - apply hello_world_eq. }
  rewrite Hop. unfold bind. rewrite IH. reflexivity.
Qed.

(** ** The sentinel *)

(** X3. The sentinel row ends the table: whatever rows follow it in static
    storage, [PyInit_iterfun], run with no exception pending, never reads
    them and creates the module it creates from the table of [fun.c], with
    [hello_world] as its one function. *)
Theorem rows_after_sentinel_never_read extra :
  PyInit_iterfun (mkState (statics_with_rows extra) None)
  = (Some iterfun_object, mkState (statics_with_rows extra) None).
Proof.
  unfold PyInit_iterfun, PyModule_Create, bind, get_statics.
  cbn [statics load_module_def statics_with_rows mem_iterfun_module
       iterfun_module m_name m_methods m_doc load_methods
       mem_module_functions].
  change (PyModule_New "iterfun" (mkState (statics_with_rows extra) None))
    with (Some (iterfun_name,
                [ ("__name__", PyUnicode iterfun_name);
                  ("__doc__", Py_None);
                  ("__package__", Py_None);
                  ("__loader__", Py_None);
                  ("__spec__", Py_None) ]),
          mkState (statics_with_rows extra) None).
  cbv beta iota.
  change (module_functions ++ extra)%list
    with ([hello_world_def] ++ sentinel :: extra)%list.
  rewrite AddFunctions_stops_at_sentinel by reflexivity.
  reflexivity.
Qed.

(** ** Schedules *)

(** X4. Whatever the pool, there is a schedule that lets every thread make
    its call: the pool in which each pending thread has returned the
    greeting is reached, with shared storage as it was. *)
Theorem every_thread_can_finish p0 :
  pool_steps p0 (mkPool (shared p0) (map finish (threads p0))).
Proof.
  destruct p0 as [g ths]. cbn [shared threads].
  exact (finish_rest g ths []).
Qed.

(** X5. The outcome does not depend on the schedule: once no thread of the
    pool is pending, the pool is the one in which every thread that was
    pending at the start has returned the greeting, whichever order the
    calls were made in. *)
Theorem schedule_independent p0 p :
  pool_steps p0 p ->
  all_returned (threads p) = true ->
  p = mkPool (shared p0) (map finish (threads p0)).
Proof.
  intros Hsteps Hdone.
  destruct (pool_steps_invariant _ _ Hsteps) as [Hsh HF].
  destruct p as [g ths]. cbn [shared threads] in *.
  rewrite Hsh, (Forall2_answered_returned _ _ HF Hdone). reflexivity.
Qed.

(** X5 on the pool of two callers, the second thread scheduled first. *)
Lemma schedule_independent_witness :
  pool_steps two_callers two_callers_done /\
  all_returned (threads two_callers_done) = true /\
  two_callers_done
  = mkPool (shared two_callers) (map finish (threads two_callers)).
Proof.
  assert (Hsteps : pool_steps two_callers two_callers_done).
  { refine (pool_steps_next _ _ _
              (pool_steps_next _ _ _ (pool_steps_refl _) _) _).
    - exact (pool_step_call 1 None None (Some (PyTuple [PyLong 1]))
               initial_statics (threads two_callers)
               (Some (PyUnicode greeting)) initial_state eq_refl eq_refl).
    - exact (pool_step_call 0 None None (Some (PyTuple []))
               initial_statics (threads two_callers_later)
               (Some (PyUnicode greeting)) initial_state eq_refl eq_refl). }
  split; [exact Hsteps|]. split; [reflexivity|].
  exact (schedule_independent _ _ Hsteps eq_refl).
Defined.
